(** * cnostrtest/websocket_client.c: a libwebsockets demonstration client

    The program is modelled as an interaction tree over the calls it makes
    to its environment (libwebsockets and stdout).  An execution is the
    run of that tree against an arbitrary environment, for an arbitrary
    number of steps; it yields the sequence of calls made and the exit
    code, if [main] has returned. *)

From Stdlib Require Import ZArith List Bool Lia.
From Stdlib Require Import Strings.String Strings.Ascii Strings.Byte.
From ITree Require Import ITree.
Import ListNotations.
Import ITreeNotations.

Local Open Scope string_scope.
Local Open Scope list_scope.
Local Open Scope Z_scope.
Local Open Scope itree_scope.

(** ** C data *)

(** A pointer is either NULL or the object it designates. *)
Definition pointer (T : Type) : Type := option T.
Definition NULL {T : Type} : pointer T := None.

(** The bytes of a C string literal; the escape [\n] is a line feed. *)
Fixpoint c_literal (s : string) : list byte :=
  match s with
  | EmptyString => []
  | String "\" (String "n" s') => x0a :: c_literal s'
  | String c s' => byte_of_ascii c :: c_literal s'
  end.

(** [(int)len] for a [size_t]: reduction to 32 bits, two's complement. *)
Definition int_of_size_t (len : Z) : Z :=
  let m := len mod 2 ^ 32 in
  if m <? 2 ^ 31 then m else m - 2 ^ 32.

(** ** printf, for the conversions the program uses *)

Inductive printf_arg : Type :=
| ArgInt (n : Z)
| ArgStr (s : list byte).

(** The bytes of [s] before its first NUL. *)
Fixpoint until_nul (s : list byte) : list byte :=
  match s with
  | [] => []
  | b :: s' => if Byte.eqb b x00 then [] else b :: until_nul s'
  end.

(** [%.*s]: at most [precision] bytes of the string, and none from its
    first NUL on; a negative precision counts as no precision.  [s] holds
    the bytes readable at the pointer. *)
Definition format_precision_s (precision : Z) (s : list byte) : list byte :=
  if precision <? 0 then until_nul s
  else until_nul (firstn (Z.to_nat precision) s).

(** The output for a format and its arguments; [x25 x2e x2a x73] is the
    conversion [%.*s], every other byte of the format is copied. *)
Fixpoint sprintf (format : list byte) (args : list printf_arg) : list byte :=
  match format with
  | x25 :: x2e :: x2a :: x73 :: format' =>
      match args with
      | ArgInt precision :: ArgStr s :: args' =>
          format_precision_s precision s ++ sprintf format' args'
      | _ => []
      end
  | b :: format' => b :: sprintf format' args
  | [] => []
  end.

(** ** libwebsockets *)

(** Opaque library objects. *)
Variant lws_context : Type := Lws_context (id : nat).
Variant lws : Type := Lws (id : nat).

(** The constants of libwebsockets.h the program names.  The header is
    not part of the repository; the program is modelled for any values. *)
Class lws_constants : Type := {
  CONTEXT_PORT_NO_LISTEN : Z;
  LLL_ERR : Z;
  LLL_WARN : Z;
  LLL_NOTICE : Z;
  LLL_INFO : Z;
  LLL_DEBUG : Z;
  LCCSCF_USE_SSL : Z;
  LCCSCF_ALLOW_SELFSIGNED : Z;
  LCCSCF_SKIP_SERVER_CERT_HOSTNAME_CHECK : Z
}.

(** The values of libwebsockets 4.x. *)
Definition libwebsockets_h : lws_constants := {|
  CONTEXT_PORT_NO_LISTEN := -1;
  LLL_ERR := 1;
  LLL_WARN := 2;
  LLL_NOTICE := 4;
  LLL_INFO := 8;
  LLL_DEBUG := 16;
  LCCSCF_USE_SSL := 1;
  LCCSCF_ALLOW_SELFSIGNED := 2;
  LCCSCF_SKIP_SERVER_CERT_HOSTNAME_CHECK := 4
|}.

(** [enum lws_callback_reasons]: the three reasons the program names,
    and any other value of the enumeration. *)
Inductive lws_callback_reasons : Type :=
| LWS_CALLBACK_CLIENT_ESTABLISHED
| LWS_CALLBACK_CLIENT_RECEIVE
| LWS_CALLBACK_CLIENT_CONNECTION_ERROR
| LWS_CALLBACK_other (code : Z).

(** The fields [main] assigns; [memset] zeroes all others. *)
Record lws_context_creation_info : Type := {
  port : Z;
  protocols : pointer unit;
  gid : Z;
  uid : Z
}.

Record lws_client_connect_info : Type := {
  context : pointer lws_context;
  address : pointer (list byte);
  path : pointer (list byte);
  host : pointer (list byte);
  origin : pointer (list byte);
  protocol : pointer (list byte);
  ietf_version_or_minus_one : Z;
  ssl_connection : Z
}.

(** The calls of the program to its environment, with their result
    types. *)
Variant lwsE : Type -> Type :=
| Printf (out : list byte) : lwsE Z
| Lws_set_log_level (level : Z) (log_emit_function : pointer unit)
  : lwsE unit
| Lws_create_context (info : lws_context_creation_info)
  : lwsE (pointer lws_context)
| Lws_canonical_hostname (ctx : pointer lws_context)
  : lwsE (pointer (list byte))
| Lws_client_connect_via_info (i : lws_client_connect_info)
  : lwsE (pointer lws)
| Lws_context_destroy (ctx : pointer lws_context) : lwsE unit
| Lws_service (ctx : pointer lws_context) (timeout_ms : Z) : lwsE Z.

Definition printf (format : list byte) (args : list printf_arg)
  : itree lwsE Z :=
  ITree.trigger (Printf (sprintf format args)).

Definition lws_set_log_level (level : Z)
    (log_emit_function : pointer unit) : itree lwsE unit :=
  ITree.trigger (Lws_set_log_level level log_emit_function).
Definition lws_create_context (info : lws_context_creation_info)
  : itree lwsE (pointer lws_context) :=
  ITree.trigger (Lws_create_context info).
Definition lws_canonical_hostname (ctx : pointer lws_context)
  : itree lwsE (pointer (list byte)) :=
  ITree.trigger (Lws_canonical_hostname ctx).
Definition lws_client_connect_via_info (i : lws_client_connect_info)
  : itree lwsE (pointer lws) :=
  ITree.trigger (Lws_client_connect_via_info i).
Definition lws_context_destroy (ctx : pointer lws_context)
  : itree lwsE unit :=
  ITree.trigger (Lws_context_destroy ctx).
Definition lws_service (ctx : pointer lws_context) (timeout_ms : Z)
  : itree lwsE Z :=
  ITree.trigger (Lws_service ctx timeout_ms).

(** [while (cond) body]. *)
Definition while (cond : itree lwsE Z) (body : itree lwsE unit)
  : itree lwsE unit :=
  ITree.iter (fun _ : unit =>
                c <- cond ;;
                if c =? 0 then Ret (inr tt) else body ;; Ret (inl tt)) tt.

(** ** The program *)

Definition SERVER_URL : list byte := c_literal "wss://relay.wellorder.net".

Definition callback_http (wsi : pointer lws) (reason : lws_callback_reasons)
    (user : pointer unit) (in_ : list byte) (len : Z) : itree lwsE Z :=
  match reason with
  | LWS_CALLBACK_CLIENT_ESTABLISHED =>
      printf (c_literal "WebSocket connection established\n") [] ;;
      Ret tt
  | LWS_CALLBACK_CLIENT_RECEIVE =>
      printf (c_literal "Received message: %.*s\n")
             [ArgInt (int_of_size_t len); ArgStr in_] ;;
      Ret tt
  | LWS_CALLBACK_CLIENT_CONNECTION_ERROR =>
      printf (c_literal "WebSocket connection error\n") [] ;;
      Ret tt
  | LWS_CALLBACK_other _ => Ret tt
  end ;;
  Ret 0.

Section Main.
Context {K : lws_constants}.

(** [main] hands no protocol table to the library ([info.protocols] and
    [conn_info.protocol] are NULL) and names [callback_http] nowhere, so
    no call of the callback occurs in its tree. *)
Definition main (argc : Z) (argv : list (list byte)) : itree lwsE Z :=
  let info := {| port := CONTEXT_PORT_NO_LISTEN;
                 protocols := NULL;
                 gid := -1;
                 uid := -1 |} in
  lws_set_log_level
    (Z.lor (Z.lor (Z.lor (Z.lor LLL_ERR LLL_WARN) LLL_NOTICE) LLL_INFO)
           LLL_DEBUG) NULL ;;
  context <- lws_create_context info ;;
  match context with
  | None =>
      printf (c_literal "Failed to create WebSocket context\n") [] ;;
      Ret 1
  | Some _ =>
      host <- lws_canonical_hostname context ;;
      let conn_info :=
        {| context := context;
           address := Some SERVER_URL;
           path := Some (c_literal "/");
           host := host;
           origin := Some SERVER_URL;
           protocol := NULL;
           ietf_version_or_minus_one := -1;
           ssl_connection :=
             Z.lor (Z.lor LCCSCF_USE_SSL LCCSCF_ALLOW_SELFSIGNED)
                   LCCSCF_SKIP_SERVER_CERT_HOSTNAME_CHECK |} in
      wsi <- lws_client_connect_via_info conn_info ;;
      match wsi with
      | None =>
          printf (c_literal "Failed to connect to WebSocket server\n") [] ;;
          lws_context_destroy context ;;
          Ret 1
      | Some _ =>
          while (Ret 1) (
            lws_service context 0 ;;
            Ret tt
          ) ;;
          lws_context_destroy context ;;
          Ret 0
      end
  end.

End Main.

(** ** Executions *)

(** A call with its arguments and the result the environment gave. *)
Inductive call : Type :=
| Call_printf (out : list byte) (ret : Z)
| Call_set_log_level (level : Z) (log_emit_function : pointer unit)
| Call_create_context (info : lws_context_creation_info)
    (ret : pointer lws_context)
| Call_canonical_hostname (ctx : pointer lws_context)
    (ret : pointer (list byte))
| Call_client_connect_via_info (i : lws_client_connect_info)
    (ret : pointer lws)
| Call_context_destroy (ctx : pointer lws_context)
| Call_service (ctx : pointer lws_context) (timeout_ms : Z) (ret : Z).

Definition record_call {X : Type} (e : lwsE X) : X -> call :=
  match e in lwsE X return X -> call with
  | Printf out => Call_printf out
  | Lws_set_log_level level f => fun _ => Call_set_log_level level f
  | Lws_create_context info => Call_create_context info
  | Lws_canonical_hostname ctx => Call_canonical_hostname ctx
  | Lws_client_connect_via_info i => Call_client_connect_via_info i
  | Lws_context_destroy ctx => fun _ => Call_context_destroy ctx
  | Lws_service ctx t => Call_service ctx t
  end.

(** The environment: any state machine that answers the calls. *)
Record environment : Type := {
  env_state : Type;
  env_init : env_state;
  env_answer : forall X : Type, lwsE X -> env_state -> X * env_state
}.

(** [run fuel s t]: the first [fuel] steps of [t] from environment state
    [s]; the calls made, and the value returned if [t] has returned. *)
Fixpoint run {R : Type} (env : environment) (fuel : nat)
    (s : env_state env) (t : itree lwsE R) : list call * option R :=
  match fuel with
  | O => ([], None)
  | S fuel' =>
      match observe t with
      | RetF r => ([], Some r)
      | TauF t' => run env fuel' s t'
      | VisF e k =>
          let (x, s') := env_answer env _ e s in
          let (tr, r) := run env fuel' s' (k x) in
          (record_call e x :: tr, r)
      end
  end.

Definition execute {R : Type} (env : environment) (fuel : nat)
    (t : itree lwsE R) : list call * option R :=
  run env fuel (env_init env) t.

(** An environment in which every call succeeds. *)
Definition env_ok : environment := {|
  env_state := unit;
  env_init := tt;
  env_answer := fun X e s =>
    match e in lwsE X return X * unit with
    | Printf out => (Z.of_nat (List.length out), s)
    | Lws_set_log_level _ _ => (tt, s)
    | Lws_create_context _ => (Some (Lws_context 0), s)
    | Lws_canonical_hostname _ => (Some (c_literal "localhost"), s)
    | Lws_client_connect_via_info _ => (Some (Lws 0), s)
    | Lws_context_destroy _ => (tt, s)
    | Lws_service _ _ => (0, s)
    end
|}.


(** An environment in which no context can be created. *)
Definition env_no_context : environment := {|
  env_state := unit;
  env_init := tt;
  env_answer := fun X e s =>
    match e in lwsE X return X * unit with
    | Lws_create_context _ => (NULL, s)
    | e' => env_answer env_ok _ e' s
    end
|}.

(** An environment in which the connection cannot be initiated. *)
Definition env_no_connect : environment := {|
  env_state := unit;
  env_init := tt;
  env_answer := fun X e s =>
    match e in lwsE X return X * unit with
    | Lws_client_connect_via_info _ => (NULL, s)
    | e' => env_answer env_ok _ e' s
    end
|}.

(** ** Observations on executions *)

Definition has_flag (flags flag : Z) : bool := Z.land flags flag =? flag.

Definition is_connect (c : call) : bool :=
  match c with Call_client_connect_via_info _ _ => true | _ => false end.

Definition is_context_destroy (c : call) : bool :=
  match c with Call_context_destroy _ => true | _ => false end.

Definition is_failed_create (c : call) : bool :=
  match c with Call_create_context _ None => true | _ => false end.

Definition is_failed_connect (c : call) : bool :=
  match c with Call_client_connect_via_info _ None => true | _ => false end.

Definition is_printf (c : call) : bool :=
  match c with Call_printf _ _ => true | _ => false end.

Definition is_set_log_level (c : call) : bool :=
  match c with Call_set_log_level _ _ => true | _ => false end.

Definition is_create_context (c : call) : bool :=
  match c with Call_create_context _ _ => true | _ => false end.

Definition is_created (c : call) : bool :=
  match c with Call_create_context _ (Some _) => true | _ => false end.

Definition is_service (c : call) : bool :=
  match c with Call_service _ _ _ => true | _ => false end.

(** The context a call is given, for the calls that take one. *)
Definition context_argument (c : call) : option (pointer lws_context) :=
  match c with
  | Call_canonical_hostname ctx _ => Some ctx
  | Call_client_connect_via_info i _ => Some (context i)
  | Call_context_destroy ctx => Some ctx
  | Call_service ctx _ _ => Some ctx
  | Call_printf _ _ | Call_set_log_level _ _ | Call_create_context _ _ => None
  end.

(** ** The executions of [main] *)

Section MainExecutions.
Context {K : lws_constants}.

Definition main_info : lws_context_creation_info :=
  {| port := CONTEXT_PORT_NO_LISTEN; protocols := NULL;
     gid := -1; uid := -1 |}.

Definition main_conn_info (c : lws_context) (h : pointer (list byte))
  : lws_client_connect_info :=
  {| context := Some c;
     address := Some SERVER_URL;
     path := Some (c_literal "/");
     host := h;
     origin := Some SERVER_URL;
     protocol := NULL;
     ietf_version_or_minus_one := -1;
     ssl_connection :=
       Z.lor (Z.lor LCCSCF_USE_SSL LCCSCF_ALLOW_SELFSIGNED)
             LCCSCF_SKIP_SERVER_CERT_HOSTNAME_CHECK |}.

Definition main_log_level : Z :=
  Z.lor (Z.lor (Z.lor (Z.lor LLL_ERR LLL_WARN) LLL_NOTICE) LLL_INFO)
        LLL_DEBUG.

(** The three ways through [main]. *)
Definition path_create_failed (r : Z) : list call :=
  [ Call_set_log_level main_log_level NULL;
    Call_create_context main_info NULL;
    Call_printf (c_literal "Failed to create WebSocket context\n") r ].

Definition path_connect_failed (c : lws_context) (h : pointer (list byte))
    (r : Z) : list call :=
  [ Call_set_log_level main_log_level NULL;
    Call_create_context main_info (Some c);
    Call_canonical_hostname (Some c) h;
    Call_client_connect_via_info (main_conn_info c h) NULL;
    Call_printf (c_literal "Failed to connect to WebSocket server\n") r;
    Call_context_destroy (Some c) ].

Definition path_servicing (c : lws_context) (h : pointer (list byte))
    (w : lws) (rets : list Z) : list call :=
  [ Call_set_log_level main_log_level NULL;
    Call_create_context main_info (Some c);
    Call_canonical_hostname (Some c) h;
    Call_client_connect_via_info (main_conn_info c h) (Some w) ]
  ++ map (Call_service (Some c) 0) rets.

(** What an execution of [main] can be: [main] has returned 1 at the end
    of one of the two failure paths, or it is still running somewhere on
    one of the three paths. *)
Inductive main_execution : list call * option Z -> Prop :=
| returned_create_failed r :
    main_execution (path_create_failed r, Some 1)
| returned_connect_failed c h r :
    main_execution (path_connect_failed c h r, Some 1)
| running_create_failed r n :
    main_execution (firstn n (path_create_failed r), None)
| running_connect_failed c h r n :
    main_execution (firstn n (path_connect_failed c h r), None)
| running_servicing c h w rets :
    main_execution (path_servicing c h w rets, None).

(** The rest of [main] once the connection is initiated. *)
Definition service_loop (ctx : pointer lws_context) : itree lwsE Z :=
  while (Ret 1) (lws_service ctx 0 ;; Ret tt) ;;
  lws_context_destroy ctx ;;
  Ret 0.

End MainExecutions.

(** * The generalized core of the specification

    The repository contains no frame codec and no outbound queue; the
    specification describes them (sections 3, 4.1, 4.3 and 7).  They are
    modelled here from its text. *)

(** Modelled from the spec: the error taxonomy of section 7; no such type
    exists in the repository. *)
Inductive ErrorKind : Type :=
| ProtocolViolation
| Timeout
| QueueFull
| ConnectionClosed
| GivingUp.

(** Modelled from the spec: a typed failure returned to the direct caller
    (section 7); no such type exists in the repository. *)
Inductive Result (A : Type) : Type :=
| Ok (a : A)
| Err (e : ErrorKind).
Arguments Ok {A} a.
Arguments Err {A} e.

Module FrameCodec.

(** Modelled from the spec: the opcodes of a Frame (section 3); missing
    from the repository. *)
Inductive Opcode : Type :=
| Text | Binary | Ping | Pong | Close | Continuation.

(** Modelled from the spec: the masking key of a Frame (section 3), four
    bytes in the WebSocket wire format. *)
Definition MaskingKey : Type := (byte * byte * byte * byte)%type.

(** Modelled from the spec: the Frame of section 3, with its opcode,
    payload, fin flag and masking key (present on client to server frames
    only); missing from the repository. *)
Record Frame : Type := {
  opcode : Opcode;
  payload : list byte;
  fin : bool;
  masking_key : option MaskingKey
}.

(** Modelled from the spec: the opcode numbers of the WebSocket wire
    format, by which the glossary defines a frame. *)
Definition opcode_bits (o : Opcode) : Z :=
  match o with
  | Continuation => 0
  | Text => 1
  | Binary => 2
  | Close => 8
  | Ping => 9
  | Pong => 10
  end.

(** Modelled from the spec: the opcode a number stands for, if any. *)
Definition opcode_of_bits (z : Z) : option Opcode :=
  match z with
  | 0 => Some Continuation
  | 1 => Some Text
  | 2 => Some Binary
  | 8 => Some Close
  | 9 => Some Ping
  | 10 => Some Pong
  | _ => None
  end.

(** Modelled from the spec: the control frames of section 4.1
    (ping, pong, close). *)
Definition is_control (o : Opcode) : bool :=
  match o with
  | Ping | Pong | Close => true
  | Text | Binary | Continuation => false
  end.

Definition byte_of_Z (z : Z) : byte :=
  match Byte.of_N (Z.to_N (z mod 256)) with
  | Some b => b
  | None => x00
  end.

Definition Z_of_byte (b : byte) : Z := Z.of_N (Byte.to_N b).

Definition byte_xor (a b : byte) : byte :=
  byte_of_Z (Z.lxor (Z_of_byte a) (Z_of_byte b)).

Definition key_byte (k : MaskingKey) (i : nat) : byte :=
  let '(k0, k1, k2, k3) := k in
  match (i mod 4)%nat with
  | 0%nat => k0
  | 1%nat => k1
  | 2%nat => k2
  | _ => k3
  end.

(** Modelled from the spec: masking (glossary), the key XORed into the
    payload, byte [i] with key byte [i mod 4]. *)
Fixpoint mask_from (k : MaskingKey) (i : nat) (p : list byte) : list byte :=
  match p with
  | [] => []
  | b :: p' => byte_xor b (key_byte k i) :: mask_from k (S i) p'
  end.

(** Modelled from the spec: a frame without masking key is not masked
    (the key is present on client to server frames only). *)
Definition apply_mask (k : option MaskingKey) (p : list byte) : list byte :=
  match k with
  | Some k => mask_from k 0 p
  | None => p
  end.

Definition key_bytes (k : option MaskingKey) : list byte :=
  match k with
  | Some (k0, k1, k2, k3) => [k0; k1; k2; k3]
  | None => []
  end.

(** Big-endian integers of [width] bytes. *)
Fixpoint be_bytes (width : nat) (n : Z) : list byte :=
  match width with
  | O => []
  | S w => be_bytes w (n / 256) ++ [byte_of_Z n]
  end.

Definition be_value (bs : list byte) : Z :=
  fold_left (fun acc b => acc * 256 + Z_of_byte b) bs 0.

(** Modelled from the spec: the width of the length field of section 4.1,
    7-bit, 16-bit extended or 64-bit extended, chosen by payload size. *)
Definition length_field (n : Z) : Z * list byte :=
  if n <=? 125 then (n, [])
  else if n <=? 65535 then (126, be_bytes 2 n)
  else (127, be_bytes 8 n).

(** Modelled from the spec: the bytes of a frame in the WebSocket wire
    format: fin flag and opcode, mask bit and 7-bit length, extended
    length, masking key, masked payload. *)
Definition frame_bytes (f : Frame) : list byte :=
  let n := Z.of_nat (List.length (payload f)) in
  byte_of_Z (Z.lor (if fin f then 128 else 0) (opcode_bits (opcode f)))
  :: byte_of_Z (Z.lor (match masking_key f with
                       | Some _ => 128
                       | None => 0
                       end) (fst (length_field n)))
  :: snd (length_field n)
  ++ key_bytes (masking_key f)
  ++ apply_mask (masking_key f) (payload f).

(** Modelled from the spec: [encode] of section 4.1; the function is
    missing from the repository.  A control frame of more than 125 bytes
    fails with [ProtocolViolation]. *)
Definition encode (f : Frame) : Result (list byte) :=
  let n := Z.of_nat (List.length (payload f)) in
  if is_control (opcode f) && (125 <? n) then Err ProtocolViolation
  else Ok (frame_bytes f).

(** The first [n] bytes of a buffer and the rest, if it holds [n]. *)
Definition take (n : nat) (l : list byte) : option (list byte * list byte) :=
  if (List.length l <? n)%nat then None else Some (firstn n l, skipn n l).

(** Modelled from the spec: [decode] of section 4.1; the function is
    missing from the repository.  It returns the next complete frame and
    the bytes consumed, or no frame and zero when the buffer holds too
    few bytes. *)
Definition decode (buffer : list byte) : Result (option Frame * nat) :=
  match buffer with
  | b0 :: b1 :: rest =>
      let z0 := Z_of_byte b0 in
      let z1 := Z_of_byte b1 in
      match opcode_of_bits (Z.land z0 15) with
      | None => Err ProtocolViolation
      | Some op =>
          let len7 := Z.land z1 127 in
          let width :=
            if len7 =? 126 then 2%nat else if len7 =? 127 then 8%nat
            else 0%nat in
          match take width rest with
          | None => Ok (None, 0%nat)
          | Some (extended, rest1) =>
              let n := if len7 <? 126 then len7 else be_value extended in
              if is_control op && (125 <? n) then Err ProtocolViolation
              else
                match (if Z.testbit z1 7 then take 4 rest1
                       else Some ([], rest1)) with
                | None => Ok (None, 0%nat)
                | Some (kb, rest2) =>
                    match take (Z.to_nat n) rest2 with
                    | None => Ok (None, 0%nat)
                    | Some (body, _) =>
                        let key :=
                          match kb with
                          | [k0; k1; k2; k3] => Some (k0, k1, k2, k3)
                          | _ => None
                          end in
                        Ok (Some {| opcode := op;
                                    payload := apply_mask key body;
                                    fin := Z.testbit z0 7;
                                    masking_key := key |},
                            (2 + width + List.length kb + Z.to_nat n)%nat)
                    end
                end
          end
      end
  | _ => Ok (None, 0%nat)
  end.

(** Modelled from the spec: the valid frame contents of section 8; a
    control frame carries at most 125 bytes (section 4.1) and a length
    fits the 64-bit extended field. *)
Definition valid_frame (f : Frame) : bool :=
  let n := Z.of_nat (List.length (payload f)) in
  (negb (is_control (opcode f)) || (n <=? 125)) && (n <? 2 ^ 63).

(** A binary frame of [n] bytes, masked, not final. *)
Definition sized_frame (n : nat) : Frame :=
  {| opcode := Binary; payload := repeat x61 n;
     fin := false; masking_key := Some (x01, x02, x03, x04) |}.

End FrameCodec.

Module OutboundQueue.

(** Modelled from the spec: the kind of an OutboundMessage (section 3),
    text or binary. *)
Inductive MessageKind : Type := TextMessage | BinaryMessage.

(** Modelled from the spec: the OutboundMessage of section 3; missing
    from the repository. *)
Record OutboundMessage : Type := {
  message_payload : list byte;
  kind : MessageKind;
  enqueued_at : Z
}.

(** Modelled from the spec: the bounded FIFO of section 4.3, of capacity
    [capacity]; missing from the repository. *)
Record Queue : Type := {
  capacity : nat;
  messages : list OutboundMessage
}.

(** Modelled from the spec: [enqueue] of section 4.3; the function is
    missing from the repository.  It returns its result and the queue
    state it leaves. *)
Definition enqueue (m : OutboundMessage) (q : Queue) : Result unit * Queue :=
  if (capacity q <=? List.length (messages q))%nat
  then (Err QueueFull, q)
  else (Ok tt, {| capacity := capacity q; messages := messages q ++ [m] |}).

Definition hello : OutboundMessage :=
  {| message_payload := c_literal "hello"; kind := TextMessage;
     enqueued_at := 0 |}.

End OutboundQueue.

(** * Verification *)

(** One step of [run]. *)
Ltac run_step := cbn [run]; cbn -[run Nat.mul Nat.add].

(** ** Executions of [main] *)

Section MainFacts.
Context {K : lws_constants}.

Lemma run_service_loop (env : environment) (ctx : pointer lws_context)
    (fuel : nat) :
  forall s : env_state env,
  exists rets : list Z,
    run env fuel s (service_loop ctx) = (map (Call_service ctx 0) rets, None).
Proof.
  induction fuel as [fuel IH] using lt_wf_ind. intros s.
  destruct fuel as [|fuel]; [exists []; reflexivity|].
  cbn [run]. cbn.
  destruct (env_answer env Z (Lws_service ctx 0) s) as [x s'].
  destruct fuel as [|fuel]; [exists [x]; reflexivity|].
  cbn [run]. cbn.
  change (ITree.subst _ (ITree.iter _ tt)) with (service_loop ctx).
  destruct (IH fuel ltac:(lia) s') as [rets ->].
  exists (x :: rets). reflexivity.
Qed.

(** Two steps of the loop make one call of lws_service, for ever. *)
Lemma run_service_loop_calls (env : environment) (ctx : pointer lws_context)
    (n : nat) :
  forall s : env_state env,
  exists rets : list Z,
    List.length rets = n /\
    run env (2 * n) s (service_loop ctx)
    = (map (Call_service ctx 0) rets, None).
Proof.
  induction n as [|n IH]; intros s; [exists []; split; reflexivity|].
  replace (2 * S n)%nat with (S (S (2 * n))) by lia.
  run_step.
  destruct (env_answer env Z (Lws_service ctx 0) s) as [x s'].
  run_step.
  change (ITree.subst _ (ITree.iter _ tt)) with (service_loop ctx).
  destruct (IH s') as [rets [Hlen ->]].
  exists (x :: rets). split; [simpl; lia | reflexivity].
Qed.

Lemma main_executions (env : environment) (fuel : nat)
    (argc : Z) (argv : list (list byte)) :
  main_execution (execute env fuel (main argc argv)).
Proof.
  unfold execute. generalize (env_init env). intros s.
  destruct fuel as [|fuel]; [exact (running_create_failed 0 0)|].
  cbn [run]. cbn.
  destruct (env_answer env unit _ s) as [[] s1].
  destruct fuel as [|fuel]; [exact (running_create_failed 0 1)|].
  cbn [run]. cbn.
  destruct (env_answer env _ (Lws_create_context _) s1) as [[c|] s2].
  - destruct fuel as [|fuel]; [exact (running_connect_failed c None 0 2)|].
    cbn [run]. cbn.
    destruct (env_answer env _ (Lws_canonical_hostname _) s2) as [h s3].
    destruct fuel as [|fuel]; [exact (running_connect_failed c h 0 3)|].
    cbn [run]. cbn.
    destruct (env_answer env _ (Lws_client_connect_via_info _) s3)
      as [[w|] s4].
    + change (ITree.subst _ (ITree.subst _ (Ret (Some w))))
        with (ITree.bind (Ret (Some w)) (fun _ : pointer lws => service_loop (Some c))).
      pose proof (run_service_loop env (Some c) fuel s4) as [rets Hrun].
      destruct fuel as [|fuel].
      * exact (running_servicing c h w []).
      * cbn [run] in *. cbn in *. rewrite Hrun.
        exact (running_servicing c h w rets).
    + destruct fuel as [|fuel]; [exact (running_connect_failed c h 0 4)|].
      cbn [run]. cbn.
      destruct (env_answer env _ (Printf _) s4) as [r s5].
      destruct fuel as [|fuel]; [exact (running_connect_failed c h r 5)|].
      cbn [run]. cbn.
      destruct (env_answer env _ (Lws_context_destroy _) s5) as [[] s6].
      destruct fuel as [|fuel]; [exact (running_connect_failed c h r 6)|].
      exact (returned_connect_failed c h r).
  - destruct fuel as [|fuel]; [exact (running_create_failed 0 2)|].
    cbn [run]. cbn.
    destruct (env_answer env _ (Printf _) s2) as [r s3].
    destruct fuel as [|fuel]; [exact (running_create_failed r 3)|].
    exact (returned_create_failed r).
Qed.

(** With seven steps or more, [main] has returned or is servicing. *)
Lemma main_executions_complete (env : environment) (fuel : nat)
    (argc : Z) (argv : list (list byte)) :
  let x := execute env (7 + fuel) (main argc argv) in
  (exists r, x = (path_create_failed r, Some 1)) \/
  (exists c h r, x = (path_connect_failed c h r, Some 1)) \/
  (exists c h w rets, x = (path_servicing c h w rets, None)).
Proof.
  unfold execute. generalize (env_init env). intros s.
  cbn [Nat.add]. run_step.
  destruct (env_answer env unit _ s) as [[] s1]. run_step.
  destruct (env_answer env _ (Lws_create_context _) s1) as [[c|] s2]; run_step.
  - destruct (env_answer env _ (Lws_canonical_hostname _) s2) as [h s3]. run_step.
    destruct (env_answer env _ (Lws_client_connect_via_info _) s3)
      as [[w|] s4]; run_step.
    + change (ITree.subst _ (ITree.subst _ (Ret (Some w))))
        with (ITree.bind (Ret (Some w))
                (fun _ : pointer lws => service_loop (Some c))).
      destruct (run_service_loop env (Some c) (S (S (S fuel))) s4)
        as [rets Hrun].
      cbn [run] in *. cbn -[run] in *. rewrite Hrun.
      right. right. exists c, h, w, rets. reflexivity.
    + destruct (env_answer env _ (Printf _) s4) as [r s5]. run_step.
      destruct (env_answer env _ (Lws_context_destroy _) s5) as [[] s6].
      right. left. exists c, h, r. reflexivity.
  - destruct (env_answer env _ (Printf _) s2) as [r s3].
    left. exists r. reflexivity.
Qed.

(** X8. The service loop does not stop: unless lws_create_context or
    lws_client_connect_via_info has returned NULL, [main] has called
    lws_service [n] times after [4 + 2 * n] steps, for every [n] and
    whatever lws_service returns. *)
Lemma main_services_for_ever (env : environment) (n : nat)
    (argc : Z) (argv : list (list byte)) :
  let x := execute env (4 + 2 * n) (main argc argv) in
  existsb is_failed_create (fst x) = true \/
  existsb is_failed_connect (fst x) = true \/
  exists c h w rets,
    x = (path_servicing c h w rets, None) /\ List.length rets = n.
Proof.
  unfold execute. generalize (env_init env). intros s.
  change (4 + 2 * n)%nat with (S (S (S (S (2 * n))))). run_step.
  destruct (env_answer env unit _ s) as [[] s1]. run_step.
  destruct (env_answer env _ (Lws_create_context _) s1) as [[c|] s2]; run_step.
  - destruct (env_answer env _ (Lws_canonical_hostname _) s2) as [h s3].
    run_step.
    destruct (env_answer env _ (Lws_client_connect_via_info _) s3)
      as [[w|] s4]; run_step.
    + destruct (run_service_loop_calls env (Some c) n s4)
        as [rets [Hlen Hrun]].
      match goal with
      | |- context [run env (2 * n) s4 ?t] =>
          assert (E : run env (2 * n) s4 t
                      = (map (Call_service (Some c) 0) rets, None))
            by (rewrite <- Hrun; destruct (2 * n)%nat; reflexivity)
      end.
      rewrite E. right. right. exists c, h, w, rets.
      split; [reflexivity | exact Hlen].
    + match goal with
      | |- context [run env ?f ?s' ?t] => destruct (run env f s' t) as [tr o]
      end.
      right. left. reflexivity.
  - destruct (env_answer env _ (Printf _) s2) as [r s3]. run_step.
    left. reflexivity.
Qed.

(** *** Facts on the three paths *)

Lemma has_flag_lor_l (a b : Z) : has_flag (Z.lor a b) a = true.
Proof.
  unfold has_flag. apply Z.eqb_eq. apply Z.bits_inj'. intros n _.
  rewrite Z.land_spec, Z.lor_spec.
  destruct (Z.testbit a n), (Z.testbit b n); reflexivity.
Qed.

Lemma has_flag_lor_r (a b : Z) : has_flag (Z.lor a b) b = true.
Proof. rewrite Z.lor_comm. apply has_flag_lor_l. Qed.

Lemma has_flag_lor_trans (a b f : Z) :
  has_flag a f = true -> has_flag (Z.lor a b) f = true.
Proof.
  unfold has_flag. rewrite !Z.eqb_eq. intros H.
  apply Z.bits_inj'. intros n _.
  apply (f_equal (fun z => Z.testbit z n)) in H.
  rewrite Z.land_spec in *. rewrite Z.lor_spec.
  destruct (Z.testbit a n), (Z.testbit b n), (Z.testbit f n);
    try reflexivity; discriminate H.
Qed.

Lemma In_firstn {A : Type} (x : A) (n : nat) (l : list A) :
  In x (firstn n l) -> In x l.
Proof.
  intros H. rewrite <- (firstn_skipn n l). apply in_or_app. left. exact H.
Qed.

Lemma filter_firstn_length {A : Type} (f : A -> bool) (n : nat) (l : list A) :
  (List.length (filter f (firstn n l)) <= List.length (filter f l))%nat.
Proof.
  rewrite <- (firstn_skipn n l) at 2. rewrite filter_app, length_app. lia.
Qed.

Lemma filter_service (f : call -> bool) (ctx : pointer lws_context)
    (t : Z) (rets : list Z) :
  (forall r, f (Call_service ctx t r) = false) ->
  filter f (map (Call_service ctx t) rets) = [].
Proof.
  intros Hf. induction rets as [|r rets IH]; simpl; [reflexivity|].
  rewrite Hf. exact IH.
Qed.

(** Every call on a path of [main] that initiates a connection passes
    [main_conn_info]. *)
Lemma connect_on_path (x : list call * option Z)
    (i : lws_client_connect_info) (ret : pointer lws) :
  main_execution x ->
  In (Call_client_connect_via_info i ret) (fst x) ->
  exists c h, i = main_conn_info c h.
Proof.
  intros Hx Hin. destruct Hx as [r|c h r|r n|c h r n|c h w rets]; simpl fst in Hin.
  - simpl in Hin. repeat destruct Hin as [Hin|Hin]; discriminate || contradiction.
  - simpl in Hin.
    repeat destruct Hin as [Hin|Hin]; try discriminate; try contradiction.
    injection Hin as <- _. eauto.
  - apply In_firstn in Hin. simpl in Hin.
    repeat destruct Hin as [Hin|Hin]; discriminate || contradiction.
  - apply In_firstn in Hin. simpl in Hin.
    repeat destruct Hin as [Hin|Hin]; try discriminate; try contradiction.
    injection Hin as <- _. eauto.
  - unfold path_servicing in Hin. apply in_app_or in Hin.
    destruct Hin as [Hin|Hin].
    + simpl in Hin.
      repeat destruct Hin as [Hin|Hin]; try discriminate; try contradiction.
      injection Hin as <- _. eauto.
    + apply in_map_iff in Hin. destruct Hin as [r [Hr _]]. discriminate Hr.
Qed.

Lemma filter_connect_on_path (x : list call * option Z) :
  main_execution x ->
  (List.length (filter is_connect (fst x)) <= 1)%nat.
Proof.
  intros Hx. destruct Hx as [r|c h r|r n|c h r n|c h w rets]; simpl fst.
  - simpl. lia.
  - simpl. lia.
  - etransitivity; [apply filter_firstn_length|]. simpl. lia.
  - etransitivity; [apply filter_firstn_length|]. simpl. lia.
  - unfold path_servicing. rewrite filter_app, length_app.
    rewrite filter_service by reflexivity. simpl. lia.
Qed.

(** *** The claims on [main] *)

(** C1. In every execution of [main], whatever the command line and the
    environment, each initiation of the connection passes TLS flags that
    include LCCSCF_ALLOW_SELFSIGNED and
    LCCSCF_SKIP_SERVER_CERT_HOSTNAME_CHECK. *)
Theorem main_skips_certificate_checks (env : environment) (fuel : nat)
    (argc : Z) (argv : list (list byte))
    (i : lws_client_connect_info) (ret : pointer lws) :
  In (Call_client_connect_via_info i ret)
     (fst (execute env fuel (main argc argv))) ->
  has_flag (ssl_connection i) LCCSCF_ALLOW_SELFSIGNED = true /\
  has_flag (ssl_connection i) LCCSCF_SKIP_SERVER_CERT_HOSTNAME_CHECK = true.
Proof.
  intros Hin.
  destruct (connect_on_path _ i ret (main_executions env fuel argc argv) Hin)
    as [c [h ->]].
  simpl ssl_connection. split.
  - apply has_flag_lor_trans, has_flag_lor_r.
  - apply has_flag_lor_r.
Qed.

(** C5. In every execution of [main], each initiation of the connection
    names the address and the origin "wss://relay.wellorder.net" and the
    path "/", and sets LCCSCF_USE_SSL. *)
Theorem main_connects_to_fixed_endpoint (env : environment) (fuel : nat)
    (argc : Z) (argv : list (list byte))
    (i : lws_client_connect_info) (ret : pointer lws) :
  In (Call_client_connect_via_info i ret)
     (fst (execute env fuel (main argc argv))) ->
  address i = Some (c_literal "wss://relay.wellorder.net") /\
  origin i = Some (c_literal "wss://relay.wellorder.net") /\
  path i = Some (c_literal "/") /\
  has_flag (ssl_connection i) LCCSCF_USE_SSL = true.
Proof.
  intros Hin.
  destruct (connect_on_path _ i ret (main_executions env fuel argc argv) Hin)
    as [c [h ->]].
  repeat split.
  simpl ssl_connection. apply has_flag_lor_trans, has_flag_lor_l.
Qed.

(** C3. In every execution of [main] the connection is initiated at most
    once, and no initiation follows one that was made, failed or not. *)
Theorem main_never_reconnects (env : environment) (fuel : nat)
    (argc : Z) (argv : list (list byte)) :
  let tr := fst (execute env fuel (main argc argv)) in
  (List.length (filter is_connect tr) <= 1)%nat /\
  (forall pre c post,
     tr = pre ++ c :: post -> is_connect c = true ->
     filter is_connect post = []).
Proof.
  intros tr.
  assert (H1 : (List.length (filter is_connect tr) <= 1)%nat)
    by apply filter_connect_on_path, main_executions.
  split; [exact H1|].
  intros pre c post E Hc. rewrite E in H1.
  rewrite filter_app, length_app in H1. simpl in H1. rewrite Hc in H1.
  simpl in H1. destruct (filter is_connect post); [reflexivity|].
  simpl in H1. lia.
Qed.

(** C4. Once the connection is initiated with success, [main] is in its
    service loop for ever: in every execution it has not returned, all
    calls after the initiation are calls of lws_service, and the context
    is not destroyed. *)
Theorem main_never_leaves_service_loop (env : environment) (fuel : nat)
    (argc : Z) (argv : list (list byte))
    (i : lws_client_connect_info) (w : lws) :
  let x := execute env fuel (main argc argv) in
  In (Call_client_connect_via_info i (Some w)) (fst x) ->
  snd x = None /\
  (exists c h rets, fst x = path_servicing c h w rets) /\
  filter is_context_destroy (fst x) = [].
Proof.
  intros x. subst x.
  destruct (main_executions env fuel argc argv)
    as [r|c h r|r n|c h r n|c h w' rets]; simpl fst; simpl snd; intros Hin.
  - simpl in Hin. repeat destruct Hin as [Hin|Hin]; discriminate || contradiction.
  - simpl in Hin. repeat destruct Hin as [Hin|Hin]; discriminate || contradiction.
  - apply In_firstn in Hin. simpl in Hin.
    repeat destruct Hin as [Hin|Hin]; discriminate || contradiction.
  - apply In_firstn in Hin. simpl in Hin.
    repeat destruct Hin as [Hin|Hin]; discriminate || contradiction.
  - assert (w' = w) as ->.
    { unfold path_servicing in Hin. apply in_app_or in Hin.
      destruct Hin as [Hin|Hin].
      - simpl in Hin.
        repeat destruct Hin as [Hin|Hin]; try discriminate; try contradiction.
        injection Hin as _ E. exact E.
      - apply in_map_iff in Hin. destruct Hin as [r [Hr _]]. discriminate Hr. }
    split; [reflexivity|]. split; [eauto|].
    unfold path_servicing. rewrite filter_app.
    rewrite filter_service by reflexivity. reflexivity.
Qed.

(** C10. [main] returns only the exit code 1, and only at the end of one
    of two paths: context creation failed and the failure was printed; or
    connection initiation failed, the failure was printed and the context
    was destroyed.  Given seven steps, it has returned 1 exactly when one
    of the two calls failed. *)
Theorem main_returns_1_on_failure_only (env : environment) (fuel : nat)
    (argc : Z) (argv : list (list byte)) :
  let x := execute env fuel (main argc argv) in
  (forall r, snd x = Some r ->
     r = 1 /\
     ((exists p, fst x = path_create_failed p) \/
      (exists c h p, fst x = path_connect_failed c h p))) /\
  ((7 <= fuel)%nat ->
     (snd x = Some 1 <->
      existsb is_failed_create (fst x) = true \/
      existsb is_failed_connect (fst x) = true)).
Proof.
  intros x. subst x. split.
  - intros r0.
    destruct (main_executions env fuel argc argv)
      as [r|c h r|r n|c h r n|c h w' rets]; simpl fst; simpl snd;
      intros E; try discriminate E; injection E as <-.
    + split; [reflexivity|]. left. eauto.
    + split; [reflexivity|]. right. eauto.
  - intros Hfuel. replace fuel with (7 + (fuel - 7))%nat by lia.
    destruct (main_executions_complete env (fuel - 7) argc argv)
      as [[r ->]|[[c [h [r ->]]]|[c [h [w [rets ->]]]]]]; simpl fst; simpl snd.
    + split; [intros _; left; reflexivity | reflexivity].
    + split; [intros _; right; reflexivity | reflexivity].
    + split; [discriminate|].
      unfold path_servicing. rewrite !existsb_app.
      assert (F1 : existsb is_failed_create
                     (map (Call_service (Some c) 0) rets) = false)
        by (induction rets; simpl; auto).
      assert (F2 : existsb is_failed_connect
                     (map (Call_service (Some c) 0) rets) = false)
        by (induction rets; simpl; auto).
      rewrite F1, F2. simpl. intros [E|E]; discriminate E.
Qed.

End MainFacts.

(** A connection is initiated when the environment lets it. *)
Lemma main_skips_certificate_checks_witness :
  In (Call_client_connect_via_info
        (@main_conn_info libwebsockets_h (Lws_context 0)
           (Some (c_literal "localhost")))
        (Some (Lws 0)))
     (fst (execute env_ok 10 (@main libwebsockets_h 1 []))) /\
  has_flag 7 2 = true /\ has_flag 7 4 = true.
Proof.
  assert (Hin : In (Call_client_connect_via_info
                      (@main_conn_info libwebsockets_h (Lws_context 0)
                         (Some (c_literal "localhost")))
                      (Some (Lws 0)))
                   (fst (execute env_ok 10 (@main libwebsockets_h 1 []))))
    by (vm_compute; tauto).
  split; [exact Hin|].
  exact (@main_skips_certificate_checks libwebsockets_h env_ok 10 1 [] _ _ Hin).
Defined.

Lemma main_connects_to_fixed_endpoint_witness :
  In (Call_client_connect_via_info
        (@main_conn_info libwebsockets_h (Lws_context 0)
           (Some (c_literal "localhost")))
        (Some (Lws 0)))
     (fst (execute env_ok 10 (@main libwebsockets_h 1 []))) /\
  has_flag 7 1 = true.
Proof.
  assert (Hin : In (Call_client_connect_via_info
                      (@main_conn_info libwebsockets_h (Lws_context 0)
                         (Some (c_literal "localhost")))
                      (Some (Lws 0)))
                   (fst (execute env_ok 10 (@main libwebsockets_h 1 []))))
    by (vm_compute; tauto).
  split; [exact Hin|].
  exact (proj2 (proj2 (proj2
    (@main_connects_to_fixed_endpoint libwebsockets_h env_ok 10 1 [] _ _ Hin)))).
Defined.

(** In ten steps with every call succeeding the connection is initiated
    once, and three calls of lws_service follow. *)
Lemma main_never_reconnects_witness :
  filter is_connect
    [Call_service (Some (Lws_context 0)) 0 0;
     Call_service (Some (Lws_context 0)) 0 0;
     Call_service (Some (Lws_context 0)) 0 0] = [].
Proof.
  apply (proj2 (@main_never_reconnects libwebsockets_h env_ok 10 1 [])
           [ Call_set_log_level 31 NULL;
             Call_create_context (@main_info libwebsockets_h) (Some (Lws_context 0));
             Call_canonical_hostname (Some (Lws_context 0))
               (Some (c_literal "localhost")) ]
           (Call_client_connect_via_info
              (@main_conn_info libwebsockets_h (Lws_context 0) (Some (c_literal "localhost")))
              (Some (Lws 0)))).
  - reflexivity.
  - reflexivity.
Defined.

Lemma main_never_leaves_service_loop_witness :
  snd (execute env_ok 10 (@main libwebsockets_h 1 [])) = None.
Proof.
  apply (@main_never_leaves_service_loop libwebsockets_h env_ok 10 1 []
           (@main_conn_info libwebsockets_h (Lws_context 0) (Some (c_literal "localhost")))
           (Lws 0)).
  vm_compute. tauto.
Defined.

(** Both failure paths, each in an environment that refuses one call. *)
Lemma main_returns_1_on_failure_only_witness :
  snd (execute env_no_context 7 (@main libwebsockets_h 1 [])) = Some 1 /\
  snd (execute env_no_connect 7 (@main libwebsockets_h 1 [])) = Some 1 /\
  ((exists p, fst (execute env_no_connect 7 (@main libwebsockets_h 1 []))
              = @path_create_failed libwebsockets_h p) \/
   (exists c h p, fst (execute env_no_connect 7 (@main libwebsockets_h 1 []))
                  = @path_connect_failed libwebsockets_h c h p)).
Proof.
  split; [|split].
  - apply (proj2 (@main_returns_1_on_failure_only libwebsockets_h
                    env_no_context 7 1 []) (le_n 7)).
    left. reflexivity.
  - apply (proj2 (@main_returns_1_on_failure_only libwebsockets_h
                    env_no_connect 7 1 []) (le_n 7)).
    right. reflexivity.
  - apply (proj1 (@main_returns_1_on_failure_only libwebsockets_h
                    env_no_connect 7 1 []) 1).
    reflexivity.
Defined.

(** ** The callback *)

Lemma int_of_size_t_small (len : Z) :
  0 <= len < 2 ^ 31 -> int_of_size_t len = len.
Proof.
  intros H. unfold int_of_size_t.
  rewrite Z.mod_small by lia.
  destruct (len <? 2 ^ 31) eqn:E; [reflexivity|].
  apply Z.ltb_ge in E. lia.
Qed.



(** C6. With reason LWS_CALLBACK_CLIENT_ESTABLISHED the callback prints
    "WebSocket connection established\n" and nothing else; with reason
    LWS_CALLBACK_CLIENT_CONNECTION_ERROR it prints
    "WebSocket connection error\n" and nothing else. *)
Theorem callback_http_logs_lifecycle (env : environment) (fuel : nat)
    (wsi : pointer lws) (user : pointer unit) (in_ : list byte) (len : Z) :
  (exists r,
     execute env (2 + fuel)
       (callback_http wsi LWS_CALLBACK_CLIENT_ESTABLISHED user in_ len)
     = ([Call_printf (c_literal "WebSocket connection established\n") r],
        Some 0)) /\
  (exists r,
     execute env (2 + fuel)
       (callback_http wsi LWS_CALLBACK_CLIENT_CONNECTION_ERROR user in_ len)
     = ([Call_printf (c_literal "WebSocket connection error\n") r],
        Some 0)).
Proof.
  unfold execute. cbn [Nat.add]. split; run_step.
  - destruct (env_answer env Z _ (env_init env)) as [r s]. run_step.
    exists r. reflexivity.
  - destruct (env_answer env Z _ (env_init env)) as [r s]. run_step.
    exists r. reflexivity.
Qed.

(** C9. The callback returns 0 for every reason, payload pointer and
    length: within two steps it has returned 0, and before that it has
    returned nothing else. *)
Theorem callback_http_returns_0 (env : environment) (fuel : nat)
    (wsi : pointer lws) (reason : lws_callback_reasons)
    (user : pointer unit) (in_ : list byte) (len : Z) :
  snd (execute env (2 + fuel) (callback_http wsi reason user in_ len))
  = Some 0 /\
  (snd (execute env fuel (callback_http wsi reason user in_ len)) = None \/
   snd (execute env fuel (callback_http wsi reason user in_ len)) = Some 0).
Proof.
  unfold execute. split.
  - cbn [Nat.add].
    destruct reason; run_step;
      try (destruct (env_answer env Z _ (env_init env)) as [r s]; run_step);
      reflexivity.
  - destruct reason;
      (destruct fuel as [|fuel]; [left; reflexivity|]); run_step;
      try (destruct (env_answer env Z _ (env_init env)) as [r s];
           destruct fuel as [|fuel]; [left; reflexivity|]; run_step);
      right; reflexivity.
Qed.

(** C2, at a payload that holds a NUL: of the three bytes "a", NUL, "b"
    the callback prints the first only. *)
Theorem callback_http_truncates_at_nul (env : environment) (fuel : nat)
    (wsi : pointer lws) (user : pointer unit) :
  (exists r,
     execute env (2 + fuel)
       (callback_http wsi LWS_CALLBACK_CLIENT_RECEIVE user [x61; x00; x62] 3)
     = ([Call_printf (c_literal "Received message: a\n") r], Some 0)) /\
  c_literal "Received message: a\n"
  <> c_literal "Received message: " ++ [x61; x00; x62] ++ c_literal "\n".
Proof.
  split.
  - unfold execute. cbn [Nat.add]. run_step.
    destruct (env_answer env Z _ (env_init env)) as [r s]. run_step.
    exists r. reflexivity.
  - discriminate.
Qed.

(** ** The frame codec of the specification *)

Module FrameCodecFacts.
Import FrameCodec.

Lemma Z_of_byte_range (b : byte) : 0 <= Z_of_byte b < 256.
Proof.
  unfold Z_of_byte. pose proof (Byte.to_N_bounded b). lia.
Qed.

Lemma Z_of_byte_of_Z (z : Z) : Z_of_byte (byte_of_Z z) = z mod 256.
Proof.
  unfold byte_of_Z, Z_of_byte.
  pose proof (Z.mod_pos_bound z 256 ltac:(lia)) as Hz.
  destruct (Byte.of_N (Z.to_N (z mod 256))) as [b|] eqn:E.
  - apply Byte.to_of_N in E. rewrite E. lia.
  - apply Byte.of_N_None_iff in E. lia.
Qed.

Lemma byte_of_Z_of_byte (b : byte) : byte_of_Z (Z_of_byte b) = b.
Proof.
  unfold byte_of_Z. pose proof (Z_of_byte_range b) as Hb.
  rewrite Z.mod_small by exact Hb.
  unfold Z_of_byte. rewrite N2Z.id, Byte.of_to_N. reflexivity.
Qed.

Lemma Z_of_byte_inj (a b : byte) : Z_of_byte a = Z_of_byte b -> a = b.
Proof.
  intros H. rewrite <- (byte_of_Z_of_byte a), <- (byte_of_Z_of_byte b).
  rewrite H. reflexivity.
Qed.

(** XOR with the same key byte twice is the identity. *)
Lemma byte_xor_involutive (a k : byte) : byte_xor (byte_xor a k) k = a.
Proof.
  apply Z_of_byte_inj. unfold byte_xor. rewrite !Z_of_byte_of_Z.
  rewrite <- (Z.mod_small (Z_of_byte a) 256) at 2 by apply Z_of_byte_range.
  apply Z.bits_inj'. intros n Hn. change 256 with (2 ^ 8).
  rewrite !Z.testbit_mod_pow2, Z.lxor_spec, Z.testbit_mod_pow2, Z.lxor_spec
    by lia.
  destruct (n <? 8), (Z.testbit (Z_of_byte a) n), (Z.testbit (Z_of_byte k) n);
    reflexivity.
Qed.

Lemma mask_from_involutive (k : MaskingKey) (p : list byte) :
  forall i, mask_from k i (mask_from k i p) = p.
Proof.
  induction p as [|b p IH]; intros i; simpl; [reflexivity|].
  rewrite byte_xor_involutive, IH. reflexivity.
Qed.

Lemma mask_from_length (k : MaskingKey) (p : list byte) :
  forall i, List.length (mask_from k i p) = List.length p.
Proof.
  induction p as [|b p IH]; intros i; simpl; [reflexivity|].
  rewrite IH. reflexivity.
Qed.

Lemma apply_mask_involutive (k : option MaskingKey) (p : list byte) :
  apply_mask k (apply_mask k p) = p.
Proof.
  destruct k as [k|]; simpl; [apply mask_from_involutive | reflexivity].
Qed.

Lemma apply_mask_length (k : option MaskingKey) (p : list byte) :
  List.length (apply_mask k p) = List.length p.
Proof.
  destruct k as [k|]; simpl; [apply mask_from_length | reflexivity].
Qed.

(** Big-endian integers. *)
Lemma be_bytes_length (w : nat) : forall n, List.length (be_bytes w n) = w.
Proof.
  induction w as [|w IH]; intros n; simpl; [reflexivity|].
  rewrite length_app, IH. simpl. lia.
Qed.

Lemma be_value_be_bytes (w : nat) :
  forall n, 0 <= n < 256 ^ Z.of_nat w -> be_value (be_bytes w n) = n.
Proof.
  unfold be_value. induction w as [|w IH]; intros n Hn.
  - simpl in *. lia.
  - simpl be_bytes. rewrite fold_left_app. simpl fold_left.
    rewrite Nat2Z.inj_succ, Z.pow_succ_r in Hn by lia.
    rewrite IH, Z_of_byte_of_Z.
    + pose proof (Z.div_mod n 256 ltac:(lia)). lia.
    + split; [apply Z.div_pos; lia | apply Z.div_lt_upper_bound; lia].
Qed.

Lemma take_app (a b : list byte) :
  take (List.length a) (a ++ b) = Some (a, b).
Proof.
  unfold take. rewrite length_app.
  destruct (List.length a + List.length b <? List.length a)%nat eqn:E.
  - apply Nat.ltb_lt in E. lia.
  - rewrite firstn_app, firstn_all, Nat.sub_diag, skipn_app, skipn_all,
      Nat.sub_diag. simpl. rewrite app_nil_r. reflexivity.
Qed.

(** A property checked on each of the first [k] naturals holds below
    [k]. *)
Lemma forall_below (P : Z -> bool) (k : nat) :
  forallb P (map Z.of_nat (seq 0 k)) = true ->
  forall z, 0 <= z < Z.of_nat k -> P z = true.
Proof.
  intros H z Hz. rewrite forallb_forall in H. apply H.
  apply in_map_iff. exists (Z.to_nat z). split; [lia|].
  apply in_seq. lia.
Qed.

(** The first header byte gives back the fin flag and the opcode. *)
Lemma header_byte0 (f : bool) (o : Opcode) :
  let z0 := Z_of_byte (byte_of_Z (Z.lor (if f then 128 else 0)
                                        (opcode_bits o))) in
  opcode_of_bits (Z.land z0 15) = Some o /\ Z.testbit z0 7 = f.
Proof.
  destruct f, o; vm_compute; split; reflexivity.
Qed.

(** The second header byte gives back the mask bit and the 7-bit
    length. *)
Lemma header_byte1 (m : Z) (len7 : Z) :
  m = 128 \/ m = 0 -> 0 <= len7 < 128 ->
  let z1 := Z_of_byte (byte_of_Z (Z.lor m len7)) in
  Z.land z1 127 = len7 /\ Z.testbit z1 7 = (m =? 128).
Proof.
  intros Hm Hlen.
  pose (P := fun m l : Z =>
               let z1 := Z_of_byte (byte_of_Z (Z.lor m l)) in
               (Z.land z1 127 =? l) && Bool.eqb (Z.testbit z1 7) (m =? 128)).
  assert (H : P m len7 = true).
  { destruct Hm as [-> | ->];
      apply (forall_below (P _) 128); try exact Hlen; vm_compute; reflexivity. }
  unfold P in H. cbv zeta in H. apply andb_prop in H. destruct H as [H1 H2].
  split; [apply Z.eqb_eq, H1 | apply Bool.eqb_prop, H2].
Qed.

Lemma key_bytes_length (k : option MaskingKey) :
  List.length (key_bytes k) = match k with Some _ => 4%nat | None => 0%nat end.
Proof. destruct k as [[[[k0 k1] k2] k3]|]; reflexivity. Qed.

(** [decode] on a buffer that starts with a header, a masking key and a
    masked payload laid out as [encode] lays them out. *)
Lemma decode_layout (fn : bool) (op : Opcode) (key : option MaskingKey)
    (p : list byte) (len7 : Z) (ext rest : list byte) :
  0 <= len7 < 128 ->
  List.length ext =
    (if len7 =? 126 then 2%nat else if len7 =? 127 then 8%nat else 0%nat) ->
  (if len7 <? 126 then len7 else be_value ext) = Z.of_nat (List.length p) ->
  is_control op && (125 <? Z.of_nat (List.length p)) = false ->
  decode (byte_of_Z (Z.lor (if fn then 128 else 0) (opcode_bits op))
          :: byte_of_Z (Z.lor (match key with
                               | Some _ => 128
                               | None => 0
                               end) len7)
          :: ext ++ key_bytes key ++ apply_mask key p ++ rest)
  = Ok (Some {| opcode := op; payload := p; fin := fn; masking_key := key |},
        (2 + List.length ext + List.length (key_bytes key)
         + List.length p)%nat).
Proof.
  intros Hlen7 Hext Hn Hctl.
  unfold decode. cbv zeta.
  destruct (header_byte0 fn op) as [H0 H0'].
  destruct (header_byte1 (match key with Some _ => 128 | None => 0 end) len7)
    as [H1 H1']; [destruct key; auto | exact Hlen7 |].
  rewrite H0, H0', H1, H1'. rewrite <- Hext, take_app, Hn, Hctl.
  rewrite Nat2Z.id.
  destruct key as [[[[k0 k1] k2] k3]|].
  - change (128 =? 128) with true. cbv iota.
    change (key_bytes (Some (k0, k1, k2, k3))) with [k0; k1; k2; k3].
    change 4%nat with (List.length [k0; k1; k2; k3]) at 1.
    rewrite take_app.
    rewrite <- (apply_mask_length (Some (k0, k1, k2, k3)) p) at 1.
    rewrite take_app, apply_mask_involutive. reflexivity.
  - change (0 =? 128) with false. cbv iota.
    change (key_bytes None ++ apply_mask None p ++ rest) with (p ++ rest).
    rewrite take_app. reflexivity.
Qed.

Lemma layout_app (b0 b1 : byte) (ext kb m rest : list byte) :
  (b0 :: b1 :: ext ++ kb ++ m) ++ rest = b0 :: b1 :: ext ++ kb ++ m ++ rest.
Proof. simpl. rewrite <- !app_assoc. reflexivity. Qed.

Lemma valid_frame_guard (f : Frame) :
  valid_frame f = true ->
  is_control (opcode f) && (125 <? Z.of_nat (List.length (payload f))) = false.
Proof.
  unfold valid_frame. intros Hv.
  apply andb_prop in Hv. destruct Hv as [Hctl _].
  destruct (is_control (opcode f)); simpl in *; [|reflexivity].
  apply Z.leb_le in Hctl. apply Z.ltb_ge. lia.
Qed.

(** [encode] accepts every valid frame. *)
Lemma encode_valid (f : Frame) :
  valid_frame f = true -> encode f = Ok (frame_bytes f).
Proof.
  intros Hv. unfold encode. rewrite valid_frame_guard by exact Hv.
  reflexivity.
Qed.

(** The length field is well formed and gives the length back. *)
Lemma length_field_spec (n : Z) :
  0 <= n < 2 ^ 63 ->
  let len7 := fst (length_field n) in
  let ext := snd (length_field n) in
  0 <= len7 < 128 /\
  List.length ext =
    (if len7 =? 126 then 2%nat else if len7 =? 127 then 8%nat else 0%nat) /\
  (if len7 <? 126 then len7 else be_value ext) = n.
Proof.
  intros Hn. unfold length_field.
  destruct (n <=? 125) eqn:E1; [|destruct (n <=? 65535) eqn:E2];
    cbn [fst snd].
  - apply Z.leb_le in E1. split; [lia|]. split.
    + destruct (n =? 126) eqn:A; [apply Z.eqb_eq in A; lia|].
      destruct (n =? 127) eqn:B; [apply Z.eqb_eq in B; lia|].
      reflexivity.
    + destruct (n <? 126) eqn:A; [reflexivity|]. apply Z.ltb_ge in A. lia.
  - apply Z.leb_gt in E1. apply Z.leb_le in E2. split; [lia|]. split.
    + reflexivity.
    + change (126 <? 126) with false. cbv iota.
      apply be_value_be_bytes. simpl. lia.
  - apply Z.leb_gt in E2. split; [lia|]. split.
    + reflexivity.
    + change (127 <? 126) with false. cbv iota.
      apply be_value_be_bytes. simpl. lia.
Qed.

(** Decoding a buffer that starts with the bytes of a valid frame gives
    the frame back and consumes those bytes. *)
Lemma decode_frame_bytes_app (f : Frame) (rest : list byte) :
  valid_frame f = true ->
  decode (frame_bytes f ++ rest) = Ok (Some f, List.length (frame_bytes f)).
Proof.
  intros Hv. pose proof (valid_frame_guard f Hv) as Hguard.
  unfold valid_frame in Hv. apply andb_prop in Hv. destruct Hv as [_ Hmax].
  apply Z.ltb_lt in Hmax.
  destruct (length_field_spec (Z.of_nat (List.length (payload f)))
              ltac:(lia)) as [Hlen7 [Hext Hn]].
  destruct f as [op p fn key]. cbn [payload opcode fin masking_key] in *.
  unfold frame_bytes. cbn [payload opcode fin masking_key].
  rewrite layout_app, decode_layout by assumption.
  cbn [List.length].
  rewrite !length_app, key_bytes_length, apply_mask_length.
  do 2 f_equal. lia.
Qed.

(** C7. Decoding the encoding of a valid frame, of any opcode, fin flag,
    masking key and payload, yields the frame and consumes all the bytes:
    [encode] succeeds, and [decode] on its result returns the frame. *)
Theorem decode_encode (f : Frame) :
  valid_frame f = true ->
  exists bytes,
    encode f = Ok bytes /\
    decode bytes = Ok (Some f, List.length bytes).
Proof.
  intros Hv. exists (frame_bytes f). split; [exact (encode_valid f Hv)|].
  rewrite <- (app_nil_r (frame_bytes f)) at 1.
  apply decode_frame_bytes_app. exact Hv.
Qed.

(** The masked and the unmasked text frames "Hello" of the WebSocket
    wire format. *)
Example encode_hello_masked :
  encode {| opcode := Text; payload := [x48; x65; x6c; x6c; x6f];
            fin := true; masking_key := Some (x37, xfa, x21, x3d) |}
  = Ok [x81; x85; x37; xfa; x21; x3d; x7f; x9f; x4d; x51; x58].
Proof. reflexivity. Qed.

Example decode_hello_unmasked :
  decode [x81; x05; x48; x65; x6c; x6c; x6f; x81]
  = Ok (Some {| opcode := Text; payload := [x48; x65; x6c; x6c; x6f];
                fin := true; masking_key := None |}, 7%nat).
Proof. reflexivity. Qed.

Example decode_incomplete :
  decode [x81; x05; x48; x65] = Ok (None, 0%nat).
Proof. reflexivity. Qed.

Example encode_long_ping :
  encode {| opcode := Ping; payload := repeat x00 126;
            fin := true; masking_key := None |}
  = Err ProtocolViolation.
Proof. reflexivity. Qed.

Lemma sized_frame_valid (n : nat) :
  (Z.of_nat n <? 2 ^ 63) = true -> valid_frame (sized_frame n) = true.
Proof.
  intros H. unfold valid_frame, sized_frame. cbn [payload opcode is_control].
  rewrite repeat_length. exact H.
Qed.

(** The round trip at the boundary payload sizes. *)
Lemma decode_encode_witness :
  (exists bytes, encode (sized_frame 0) = Ok bytes /\
                 decode bytes = Ok (Some (sized_frame 0), List.length bytes)) /\
  (exists bytes, encode (sized_frame 125) = Ok bytes /\
                 decode bytes = Ok (Some (sized_frame 125), List.length bytes)) /\
  (exists bytes, encode (sized_frame 126) = Ok bytes /\
                 decode bytes = Ok (Some (sized_frame 126), List.length bytes)) /\
  (exists bytes, encode (sized_frame (Z.to_nat 65535)) = Ok bytes /\
                 decode bytes
                 = Ok (Some (sized_frame (Z.to_nat 65535)), List.length bytes)) /\
  (exists bytes, encode (sized_frame (Z.to_nat 65536)) = Ok bytes /\
                 decode bytes
                 = Ok (Some (sized_frame (Z.to_nat 65536)), List.length bytes)).
Proof.
  repeat split;
    apply decode_encode; apply sized_frame_valid; vm_compute; reflexivity.
Defined.

End FrameCodecFacts.

(** ** The outbound queue of the specification *)

Module OutboundQueueFacts.
Import OutboundQueue.

(** Below capacity [enqueue] appends the message. *)
Lemma enqueue_below_capacity (m : OutboundMessage) (q : Queue) :
  (List.length (messages q) < capacity q)%nat ->
  enqueue m q
  = (Ok tt, {| capacity := capacity q; messages := messages q ++ [m] |}).
Proof.
  intros H. unfold enqueue.
  destruct (capacity q <=? List.length (messages q))%nat eqn:E;
    [apply Nat.leb_le in E; lia | reflexivity].
Qed.

(** [enqueue] never takes a queue over its capacity. *)
Lemma enqueue_bounded (m : OutboundMessage) (q : Queue) :
  (List.length (messages q) <= capacity q)%nat ->
  (List.length (messages (snd (enqueue m q)))
   <= capacity (snd (enqueue m q)))%nat.
Proof.
  intros H. unfold enqueue.
  destruct (capacity q <=? List.length (messages q))%nat eqn:E; simpl.
  - exact H.
  - apply Nat.leb_gt in E. rewrite length_app. simpl. lia.
Qed.

(** C8. On a queue that holds [capacity] messages, [enqueue] fails with
    [QueueFull] and leaves the queue as it was. *)
Theorem enqueue_at_capacity (m : OutboundMessage) (q : Queue) :
  List.length (messages q) = capacity q ->
  enqueue m q = (Err QueueFull, q).
Proof.
  intros H. unfold enqueue. rewrite H, Nat.leb_refl. reflexivity.
Qed.

Lemma enqueue_at_capacity_witness :
  enqueue hello {| capacity := 2; messages := [hello; hello] |}
  = (Err QueueFull, {| capacity := 2; messages := [hello; hello] |}).
Proof.
  apply (enqueue_at_capacity hello
           {| capacity := 2; messages := [hello; hello] |}).
  reflexivity.
Defined.

End OutboundQueueFacts.

(** * Further properties of the program *)

(** ** [main]: the order and the arguments of its calls *)

Section MainCalls.
Context {K : lws_constants}.

(** The calls on the two failure paths and the set-up calls of the
    servicing path, one by one. *)
Ltac on_path Hin :=
  simpl in Hin;
  repeat (destruct Hin as [Hin|Hin]; [try discriminate Hin|]);
  try contradiction.

Lemma In_path_servicing (x : call) (c : lws_context)
    (h : pointer (list byte)) (w : lws) (rets : list Z) :
  In x (path_servicing c h w rets) ->
  In x (path_servicing c h w []) \/ exists r, x = Call_service (Some c) 0 r.
Proof.
  unfold path_servicing. intros Hin. apply in_app_or in Hin.
  destruct Hin as [Hin|Hin].
  - left. apply in_or_app. left. exact Hin.
  - right. apply in_map_iff in Hin. destruct Hin as [r [Hr _]]. eauto.
Qed.

Lemma filter_removelast_nil {A : Type} (f : A -> bool) (l : list A) :
  filter f l = [] -> filter f (removelast l) = [].
Proof.
  induction l as [|a l IH]; simpl; [reflexivity|].
  destruct (f a) eqn:E; [discriminate|]. intros H.
  destruct l as [|b l]; [reflexivity|].
  simpl. rewrite E. exact (IH H).
Qed.

(** X1. lws_set_log_level is the first call of every execution, with the
    five levels LLL_ERR, LLL_WARN, LLL_NOTICE, LLL_INFO and LLL_DEBUG and
    no emit function, and it is called once only. *)
Theorem main_sets_log_level_first (env : environment) (fuel : nat)
    (argc : Z) (argv : list (list byte)) :
  let tr := fst (execute env (1 + fuel) (main argc argv)) in
  (exists tr',
     tr = Call_set_log_level
            (Z.lor (Z.lor (Z.lor (Z.lor LLL_ERR LLL_WARN) LLL_NOTICE)
                      LLL_INFO) LLL_DEBUG) NULL :: tr') /\
  List.length (filter is_set_log_level tr) = 1%nat.
Proof.
  intros tr.
  assert (Hhead : exists tr', tr = Call_set_log_level main_log_level NULL :: tr').
  { subst tr. unfold execute. cbn [Nat.add]. run_step.
    destruct (env_answer env unit _ (env_init env)) as [[] s1].
    match goal with
    | |- context [run env ?f ?s' ?t] => destruct (run env f s' t) as [tr' o]
    end.
    exists tr'. reflexivity. }
  split; [exact Hhead|].
  assert (Hle : (List.length (filter is_set_log_level tr) <= 1)%nat).
  { subst tr.
    destruct (main_executions env (1 + fuel) argc argv)
      as [r|c h r|r n|c h r n|c h w rets]; simpl fst.
    - simpl. lia.
    - simpl. lia.
    - etransitivity; [apply filter_firstn_length|]. simpl. lia.
    - etransitivity; [apply filter_firstn_length|]. simpl. lia.
    - unfold path_servicing. rewrite filter_app, length_app.
      rewrite filter_service by reflexivity. simpl. lia. }
  destruct Hhead as [tr' E]. rewrite E in *. simpl in *. lia.
Qed.

(** X2. Every context is created for a client that listens on no port
    (CONTEXT_PORT_NO_LISTEN), with no protocol table and with gid and uid
    -1; and lws_create_context is called at most once in an execution. *)
Theorem main_creates_one_client_context (env : environment) (fuel : nat)
    (argc : Z) (argv : list (list byte)) :
  let tr := fst (execute env fuel (main argc argv)) in
  (forall info ret,
     In (Call_create_context info ret) tr ->
     port info = CONTEXT_PORT_NO_LISTEN /\ protocols info = NULL /\
     gid info = -1 /\ uid info = -1) /\
  (List.length (filter is_create_context tr) <= 1)%nat.
Proof.
  intros tr. subst tr.
  destruct (main_executions env fuel argc argv)
    as [r|c h r|r n|c h r n|c h w rets]; simpl fst; split.
  - intros info ret Hin. on_path Hin. injection Hin as <- _. auto.
  - simpl. lia.
  - intros info ret Hin. on_path Hin. injection Hin as <- _. auto.
  - simpl. lia.
  - intros info ret Hin. apply In_firstn in Hin. on_path Hin.
    injection Hin as <- _. auto.
  - etransitivity; [apply filter_firstn_length|]. simpl. lia.
  - intros info ret Hin. apply In_firstn in Hin. on_path Hin.
    injection Hin as <- _. auto.
  - etransitivity; [apply filter_firstn_length|]. simpl. lia.
  - intros info ret Hin. apply In_path_servicing in Hin.
    destruct Hin as [Hin|[r Hr]]; [|discriminate Hr].
    on_path Hin. injection Hin as <- _. auto.
  - unfold path_servicing. rewrite filter_app, length_app.
    rewrite filter_service by reflexivity. simpl. lia.
Qed.

(** X3. The connection is initiated on the context that
    lws_create_context returned, with the host name that
    lws_canonical_hostname returned for that context, both earlier in the
    execution; no protocol is named and the protocol version is -1. *)
Theorem main_connects_on_created_context (env : environment) (fuel : nat)
    (argc : Z) (argv : list (list byte))
    (i : lws_client_connect_info) (ret : pointer lws) :
  let tr := fst (execute env fuel (main argc argv)) in
  In (Call_client_connect_via_info i ret) tr ->
  exists c h pre post,
    tr = pre ++ Call_client_connect_via_info i ret :: post /\
    (exists info, In (Call_create_context info (Some c)) pre) /\
    In (Call_canonical_hostname (Some c) h) pre /\
    context i = Some c /\ host i = h /\
    protocol i = NULL /\ ietf_version_or_minus_one i = -1.
Proof.
  intros tr. subst tr.
  destruct (main_executions env fuel argc argv)
    as [r|c h r|r n|c h r n|c h w rets]; simpl fst; intros Hin.
  - on_path Hin.
  - on_path Hin. injection Hin as <- <-.
    exists c, h. eexists [_; _; _], _. split; [reflexivity|].
    split; [eexists; simpl; auto|]. split; [simpl; auto|]. repeat split.
  - apply In_firstn in Hin. on_path Hin.
  - do 7 (try destruct n as [|n]); on_path Hin; injection Hin as <- <-;
      exists c, h; eexists [_; _; _], _; (split; [reflexivity|]);
      (split; [eexists; simpl; auto|]); (split; [simpl; auto|]);
      repeat split.
  - exists c, h.
    apply In_path_servicing in Hin. destruct Hin as [Hin|[r Hr]];
      [|discriminate Hr].
    on_path Hin. injection Hin as <- <-.
    eexists [_; _; _], _. split; [reflexivity|].
    split; [eexists; simpl; auto|]. split; [simpl; auto|]. repeat split.
Qed.

(** X4. No call is given a NULL context: the context of every call of
    lws_canonical_hostname, lws_client_connect_via_info, lws_service and
    lws_context_destroy is one that lws_create_context returned in the
    same execution. *)
Theorem main_uses_created_context_only (env : environment) (fuel : nat)
    (argc : Z) (argv : list (list byte))
    (x : call) (ctx : pointer lws_context) :
  let tr := fst (execute env fuel (main argc argv)) in
  In x tr -> context_argument x = Some ctx ->
  exists c info, ctx = Some c /\ In (Call_create_context info (Some c)) tr.
Proof.
  intros tr. subst tr.
  destruct (main_executions env fuel argc argv)
    as [r|c h r|r n|c h r n|c h w rets]; simpl fst; intros Hin Hctx.
  - simpl in Hin. repeat (destruct Hin as [Hin|Hin]; [subst x; simpl in Hctx; discriminate Hctx|]).
    contradiction.
  - simpl in Hin.
    repeat (destruct Hin as [Hin|Hin];
            [subst x; simpl in Hctx;
             first [ discriminate Hctx
                   | injection Hctx as <-; exists c; eexists;
                     split; [reflexivity | simpl; eauto] ]|]).
    contradiction.
  - apply In_firstn in Hin. simpl in Hin.
    repeat (destruct Hin as [Hin|Hin]; [subst x; simpl in Hctx; discriminate Hctx|]).
    contradiction.
  - do 7 (try destruct n as [|n]); simpl in Hin;
      repeat (destruct Hin as [Hin|Hin];
              [subst x; simpl in Hctx;
               first [ discriminate Hctx
                     | injection Hctx as <-; exists c; eexists;
                       split; [reflexivity | simpl; eauto] ]|]);
      contradiction.
  - assert (Hc : In (Call_create_context main_info (Some c))
                    (path_servicing c h w rets))
      by (unfold path_servicing; apply in_or_app; left; simpl; auto).
    apply In_path_servicing in Hin. destruct Hin as [Hin|[r ->]].
    + simpl in Hin.
      repeat (destruct Hin as [Hin|Hin];
              [subst x; simpl in Hctx;
               first [ discriminate Hctx
                     | injection Hctx as <-; exists c; eexists;
                       split; [reflexivity | exact Hc] ]|]).
      contradiction.
    + injection Hctx as <-. exists c. eexists. split; [reflexivity | exact Hc].
Qed.

(** X5. When [main] has returned, every context it created has been
    destroyed: the execution holds as many calls of lws_context_destroy
    as calls of lws_create_context that returned a context. *)
Theorem main_returns_without_context (env : environment) (fuel : nat)
    (argc : Z) (argv : list (list byte)) (r : Z) :
  let x := execute env fuel (main argc argv) in
  snd x = Some r ->
  List.length (filter is_created (fst x))
  = List.length (filter is_context_destroy (fst x)).
Proof.
  intros x. subst x.
  destruct (main_executions env fuel argc argv)
    as [r'|c h r'|r' n|c h r' n|c h w rets]; simpl fst; simpl snd;
    intros E; try discriminate E; reflexivity.
Qed.

(** X6. lws_context_destroy is called at most once in an execution, only
    after a connection initiation that failed, and no call follows it. *)
Theorem main_destroys_context_last (env : environment) (fuel : nat)
    (argc : Z) (argv : list (list byte)) :
  let tr := fst (execute env fuel (main argc argv)) in
  (List.length (filter is_context_destroy tr) <= 1)%nat /\
  filter is_context_destroy (removelast tr) = [] /\
  (existsb is_context_destroy tr = true ->
   existsb is_failed_connect (removelast tr) = true).
Proof.
  intros tr. subst tr.
  destruct (main_executions env fuel argc argv)
    as [r|c h r|r n|c h r n|c h w rets]; simpl fst.
  - split; [|split]; simpl; try lia; try reflexivity; discriminate.
  - split; [|split]; simpl; try lia; reflexivity.
  - do 4 (try destruct n as [|n]); (split; [|split]); simpl;
      try lia; try reflexivity; discriminate.
  - do 7 (try destruct n as [|n]); (split; [|split]); simpl;
      try lia; try reflexivity; discriminate.
  - assert (Hnone : filter is_context_destroy (path_servicing c h w rets) = []).
    { unfold path_servicing. rewrite filter_app.
      rewrite filter_service by reflexivity. reflexivity. }
    split; [rewrite Hnone; simpl; lia|].
    split; [apply filter_removelast_nil, Hnone|].
    intros Hex. apply existsb_exists in Hex. destruct Hex as [x [Hin Hx]].
    assert (Hf : In x (filter is_context_destroy (path_servicing c h w rets)))
      by (apply filter_In; split; assumption).
    rewrite Hnone in Hf. contradiction.
Qed.

(** X7. [main] prints at most one line, and only after a failure: it
    prints nothing unless lws_create_context or
    lws_client_connect_via_info has returned NULL. *)
Theorem main_prints_on_failure_only (env : environment) (fuel : nat)
    (argc : Z) (argv : list (list byte)) :
  let tr := fst (execute env fuel (main argc argv)) in
  (List.length (filter is_printf tr) <= 1)%nat /\
  (existsb is_printf tr = true ->
   existsb is_failed_create tr = true \/
   existsb is_failed_connect tr = true).
Proof.
  intros tr. subst tr.
  destruct (main_executions env fuel argc argv)
    as [r|c h r|r n|c h r n|c h w rets]; simpl fst.
  - split; simpl; [lia | auto].
  - split; simpl; [lia | auto].
  - do 4 (try destruct n as [|n]); split; simpl; try lia; auto; discriminate.
  - do 7 (try destruct n as [|n]); split; simpl; try lia; auto; discriminate.
  - assert (Hnone : filter is_printf (path_servicing c h w rets) = []).
    { unfold path_servicing. rewrite filter_app.
      rewrite filter_service by reflexivity. reflexivity. }
    split; [rewrite Hnone; simpl; lia|].
    intros Hex. apply existsb_exists in Hex. destruct Hex as [x [Hin Hx]].
    assert (Hf : In x (filter is_printf (path_servicing c h w rets)))
      by (apply filter_In; split; assumption).
    rewrite Hnone in Hf. contradiction.
Qed.

End MainCalls.

(** Witnesses for the properties of [main] above. *)

Lemma main_creates_one_client_context_witness :
  port (@main_info libwebsockets_h) = -1 /\
  protocols (@main_info libwebsockets_h) = NULL /\
  gid (@main_info libwebsockets_h) = -1 /\
  uid (@main_info libwebsockets_h) = -1.
Proof.
  apply (proj1 (@main_creates_one_client_context libwebsockets_h
                  env_ok 10 1 [])
           (@main_info libwebsockets_h) (Some (Lws_context 0))).
  vm_compute. tauto.
Defined.

Lemma main_connects_on_created_context_witness :
  exists c h pre post,
    fst (execute env_ok 10 (@main libwebsockets_h 1 []))
    = pre ++ Call_client_connect_via_info
               (@main_conn_info libwebsockets_h (Lws_context 0)
                  (Some (c_literal "localhost")))
               (Some (Lws 0)) :: post /\
    (exists info, In (Call_create_context info (Some c)) pre) /\
    In (Call_canonical_hostname (Some c) h) pre /\
    Some (Lws_context 0) = Some c /\ Some (c_literal "localhost") = h /\
    @NULL (list byte) = NULL /\ -1 = -1.
Proof.
  apply (@main_connects_on_created_context libwebsockets_h env_ok 10 1 []
           (@main_conn_info libwebsockets_h (Lws_context 0)
              (Some (c_literal "localhost")))
           (Some (Lws 0))).
  vm_compute. tauto.
Defined.

Lemma main_uses_created_context_only_witness :
  exists c info,
    Some (Lws_context 0) = Some c /\
    In (Call_create_context info (Some c))
       (fst (execute env_ok 10 (@main libwebsockets_h 1 []))).
Proof.
  apply (@main_uses_created_context_only libwebsockets_h env_ok 10 1 []
           (Call_service (Some (Lws_context 0)) 0 0) (Some (Lws_context 0))).
  - vm_compute. tauto.
  - reflexivity.
Defined.

Lemma main_returns_without_context_witness :
  List.length
    (filter is_created
       (fst (execute env_no_connect 7 (@main libwebsockets_h 1 []))))
  = 1%nat /\
  List.length
    (filter is_context_destroy
       (fst (execute env_no_connect 7 (@main libwebsockets_h 1 []))))
  = 1%nat.
Proof.
  split; [reflexivity|].
  rewrite <- (@main_returns_without_context libwebsockets_h
                env_no_connect 7 1 [] 1 eq_refl).
  reflexivity.
Defined.

Lemma main_destroys_context_last_witness :
  existsb is_failed_connect
    (removelast (fst (execute env_no_connect 7 (@main libwebsockets_h 1 []))))
  = true.
Proof.
  apply (proj2 (proj2 (@main_destroys_context_last libwebsockets_h
                         env_no_connect 7 1 []))).
  reflexivity.
Defined.

Lemma main_prints_on_failure_only_witness :
  existsb is_failed_create
    (fst (execute env_no_context 7 (@main libwebsockets_h 1 []))) = true \/
  existsb is_failed_connect
    (fst (execute env_no_context 7 (@main libwebsockets_h 1 []))) = true.
Proof.
  apply (proj2 (@main_prints_on_failure_only libwebsockets_h
                  env_no_context 7 1 [])).
  reflexivity.
Defined.

(** ** [callback_http]: what it prints on a received message *)

Lemma sprintf_received (precision : Z) (s : list byte) :
  sprintf (c_literal "Received message: %.*s\n") [ArgInt precision; ArgStr s]
  = c_literal "Received message: " ++ format_precision_s precision s
    ++ c_literal "\n".
Proof. reflexivity. Qed.





(** X10. For a length that fits an [int], the callback reads no byte
    beyond the first [len] at [in]: what follows them does not change
    the execution. *)
Theorem callback_http_reads_len_bytes (env : environment) (fuel : nat)
    (wsi : pointer lws) (user : pointer unit) (in_ : list byte) (len : Z) :
  0 <= len < 2 ^ 31 ->
  execute env fuel
    (callback_http wsi LWS_CALLBACK_CLIENT_RECEIVE user in_ len)
  = execute env fuel
      (callback_http wsi LWS_CALLBACK_CLIENT_RECEIVE user
         (firstn (Z.to_nat len) in_) len).
Proof.
  intros Hlen. unfold callback_http, printf. rewrite !sprintf_received.
  unfold format_precision_s. rewrite int_of_size_t_small by exact Hlen.
  destruct (len <? 0) eqn:E; [apply Z.ltb_lt in E; lia|].
  rewrite firstn_firstn, Nat.min_id. reflexivity.
Qed.


(** X13. The callback calls nothing but printf, and that at most once;
    for a reason other than the three it names it makes no call. *)
Theorem callback_http_only_prints (env : environment) (fuel : nat)
    (wsi : pointer lws) (reason : lws_callback_reasons)
    (user : pointer unit) (in_ : list byte) (len : Z) :
  let tr := fst (execute env fuel
                   (callback_http wsi reason user in_ len)) in
  filter (fun c => negb (is_printf c)) tr = [] /\
  (List.length tr <= 1)%nat /\
  (forall code, reason = LWS_CALLBACK_other code -> tr = []).
Proof.
  intros tr. subst tr. unfold execute.
  destruct reason;
    (destruct fuel as [|fuel];
     [repeat split; simpl; auto|]); run_step;
    try (destruct (env_answer env Z _ (env_init env)) as [r s];
         destruct fuel as [|fuel]; run_step);
    repeat split; simpl; auto; discriminate.
Qed.

(** Witnesses for the properties of [callback_http] above. *)



Lemma callback_http_reads_len_bytes_witness :
  execute env_ok 2
    (callback_http NULL LWS_CALLBACK_CLIENT_RECEIVE NULL
       [x61; x62; x63; x64] 2)
  = execute env_ok 2
      (callback_http NULL LWS_CALLBACK_CLIENT_RECEIVE NULL [x61; x62] 2).
Proof.
  apply (callback_http_reads_len_bytes env_ok 2 NULL NULL
           [x61; x62; x63; x64] 2).
  split; [discriminate | reflexivity].
Defined.


Lemma callback_http_only_prints_witness :
  fst (execute env_ok 2
         (callback_http NULL (LWS_CALLBACK_other 30) NULL [x61] 1)) = [].
Proof.
  apply (proj2 (proj2 (callback_http_only_prints env_ok 2 NULL
                         (LWS_CALLBACK_other 30) NULL [x61] 1)) 30).
  reflexivity.
Defined.
